(** * Python profiling tutorial: the demonstration code, embedded and verified

    The notebook defines a handful of small Python functions that the
    profilers are pointed at: a doubly recursive [fib], a [Timer] class
    holding one class-level start time, a synthetic workload
    ([f], [compute], [fun1], [fun2], [fun3], [sleep_], [main]) and a
    [profile] decorator, and calls them from the top level of its cells.
    This file embeds them shallowly and proves what the documentation
    says about them (Part II) and what else the code shows (Part III).

    Conventions.
    - Python integers are [Z]; Python floats are IEEE binary64 numbers,
      i.e. Rocq's primitive [float]; the values that flow through the
      snippets are collected in [pyval].
    - A raised exception is the left injection of a sum.
    - Code with side effects (clock readings, [sleep], [print], the class
      attribute [Timer._start_time], the interpreter's profiling hook) is
      written in a state-and-exception monad over a record [World]; an
      exception keeps the world as it was when it was raised, as in Python.
    - [fib] is not structurally recursive on its integer argument, so it
      is given a recursion-depth budget (the interpreter's stack), and
      termination is the statement that some budget suffices. *)

From Stdlib Require Import ZArith List String Bool Lia Floats DecimalString.
Import ListNotations.
Open Scope Z_scope.

(* ================================================================== *)
(** * Part I: the embedding *)
(* ================================================================== *)

(** ** Values and exceptions *)

Inductive pyval : Type :=
| VNone
| VInt (z : Z)
| VFloat (x : float).

Inductive exn : Type :=
| TypeError
| OverflowError
| ValueError
| UserError (tag : string).

(** The outcome of an expression that may raise. *)
Definition Res (A : Type) : Type := (exn + A)%type.

Definition res_bind {A B} (r : Res A) (k : A -> Res B) : Res B :=
  match r with
  | inl e => inl e
  | inr a => k a
  end.

(** Conversion of an integer to a float, as the interpreter does it for
    mixed arithmetic: correctly rounded (ties to even), [OverflowError]
    when the integer is beyond the binary64 range. *)
Definition float_of_int (z : Z) : Res float :=
  match binary_normalize prec emax z 0 false with
  | S754_infinity _ => inl OverflowError
  | sf => inr (SF2Prim sf)
  end.

(** Coercion of a numeric operand to float; [None] is not a number. *)
Definition as_float (v : pyval) : Res float :=
  match v with
  | VNone => inl TypeError
  | VInt z => float_of_int z
  | VFloat x => inr x
  end.

(** Binary [+] and [-] on the values above. *)
Definition py_arith (zop : Z -> Z -> Z) (fop : float -> float -> float)
    (a b : pyval) : Res pyval :=
  match a, b with
  | VNone, _ | _, VNone => inl TypeError
  | VInt x, VInt y => inr (VInt (zop x y))
  | _, _ =>
      res_bind (as_float a) (fun x =>
      res_bind (as_float b) (fun y => inr (VFloat (fop x y))))
  end.

Definition py_add : pyval -> pyval -> Res pyval := py_arith Z.add PrimFloat.add.
Definition py_sub : pyval -> pyval -> Res pyval := py_arith Z.sub PrimFloat.sub.

(** ** What the Python runtime supplies

    [math.sin] on a float and the rendering of a float with a fixed
    number of decimals (the [f] presentation type of the format
    mini-language) are library code, not code of this repository. *)
Class Runtime : Type := {
  math_sin : float -> Res float;
  format_float_fixed : nat -> float -> string
}.

(** ** fib

<<
def fib(n):
    if n == 0 or n == 1:
        return 1
    else:
        return fib(n-1) + fib(n-2)
>>
    [depth] bounds the number of nested activations of [fib]; [None]
    means the budget was exhausted. The left call is evaluated first and
    the right one only if the left one came back. *)
Fixpoint fib (depth : nat) (n : Z) : option Z :=
  match depth with
  | O => None
  | S d =>
      if (n =? 0) || (n =? 1) then Some 1
      else
        match fib d (n - 1) with
        | None => None
        | Some a =>
            match fib d (n - 2) with
            | None => None
            | Some b => Some (a + b)
            end
        end
  end.

(** [fib n] returns [v]: some recursion budget suffices. *)
Definition fib_returns (n v : Z) : Prop := exists depth, fib depth n = Some v.

(** [fib n] never returns, whatever the budget. *)
Definition fib_diverges (n : Z) : Prop := forall depth, fib depth n = None.

(** The same function under a call-counting profiler: the second
    component is the number of activations of [fib] (the [ncalls] column
    of cProfile). *)
Fixpoint fib_profiled (depth : nat) (n : Z) : option (Z * Z) :=
  match depth with
  | O => None
  | S d =>
      if (n =? 0) || (n =? 1) then Some (1, 1)
      else
        match fib_profiled d (n - 1) with
        | None => None
        | Some (a, ca) =>
            match fib_profiled d (n - 2) with
            | None => None
            | Some (b, cb) => Some (a + b, 1 + ca + cb)
            end
        end
  end.

(** The textbook sequence F(0) = 0, F(1) = 1, F(k+2) = F(k+1) + F(k),
    against which the values of [fib] are compared. *)
Fixpoint fibonacci_pair (k : nat) : Z * Z :=
  match k with
  | O => (0, 1)
  | S k' => let '(a, b) := fibonacci_pair k' in (b, a + b)
  end.

Definition fibonacci (k : nat) : Z := fst (fibonacci_pair k).

(** ** The world the effectful snippets run in *)

(** What reaches the outside, in the order it happens. *)
Inductive event : Type :=
| EvSleep (secs : float)      (* time.sleep(secs) *)
| EvPrint (text : string)     (* print(text) *)
| EvPrintStats.               (* print of the report written by pstats *)

Record World : Type := mkWorld {
  Timer_start_time : pyval;   (* the class attribute Timer._start_time *)
  clock : nat -> float;       (* what the k-th call of perf_counter reads *)
  ticks : nat;                (* how many readings have been taken *)
  trace : list event;         (* sleeps and output so far *)
  profiling : bool            (* a profile hook is installed in the interpreter *)
}.

(** The world right after the notebook's definitions have been executed:
    [_start_time = None], nothing printed, no profiler running. *)
Definition initial_world (clk : nat -> float) : World :=
  mkWorld VNone clk 0 [] false.

(** State and exceptions: a computation maps a world to an outcome and
    the world it leaves, also when it raises. *)
Definition M (A : Type) : Type := World -> Res A * World.

Definition ret {A} (a : A) : M A := fun w => (inr a, w).

Definition bind {A B} (m : M A) (k : A -> M B) : M B :=
  fun w =>
    match m w with
    | (inl e, w') => (inl e, w')
    | (inr a, w') => k a w'
    end.

(** An effect-free expression used inside effectful code. *)
Definition lift {A} (r : Res A) : M A := fun w => (r, w).

Declare Scope py_scope.
Delimit Scope py_scope with py.
Notation "x <- c ;; k" := (bind c (fun x => k))
  (at level 61, c at next level, right associativity) : py_scope.
Notation "c ;; k" := (bind c (fun _ => k))
  (at level 61, right associativity) : py_scope.
Open Scope py_scope.

Definition outcome {A} (m : M A) (w : World) : Res A := fst (m w).
Definition world_after {A} (m : M A) (w : World) : World := snd (m w).

(** *** Primitive effects *)

(** [time.perf_counter()] *)
Definition perf_counter : M float :=
  fun w =>
    (inr (clock w (ticks w)),
     mkWorld (Timer_start_time w) (clock w) (S (ticks w)) (trace w) (profiling w)).

Definition emit (ev : event) : M unit :=
  fun w =>
    (inr tt,
     mkWorld (Timer_start_time w) (clock w) (ticks w) (trace w ++ [ev]) (profiling w)).

(** [time.sleep(secs)] and [print(text)] *)
Definition sleep (secs : float) : M unit := emit (EvSleep secs).
Definition print (text : string) : M unit := emit (EvPrint text).

Definition get_start_time : M pyval :=
  fun w => (inr (Timer_start_time w), w).

Definition set_start_time (v : pyval) : M unit :=
  fun w => (inr tt, mkWorld v (clock w) (ticks w) (trace w) (profiling w)).

(** [pr.enable()] and [pr.disable()] of a cProfile profiler install and
    remove the interpreter's profile hook. *)
Definition set_profiling (b : bool) : M unit :=
  fun w => (inr tt, mkWorld (Timer_start_time w) (clock w) (ticks w) (trace w) b).

(** The binary64 number that the literal [0.1] denotes. *)
Definition tenth : float := 0x1.999999999999ap-4%float.

Definition newline : string := String (Ascii.ascii_of_nat 10) EmptyString.

(** [for i in items: s = body(i, s)], leaving at the first exception. *)
Fixpoint for_each {S : Type} (items : list Z) (body : Z -> S -> Res S) (s : S)
    : Res S :=
  match items with
  | [] => inr s
  | i :: rest =>
      match body i s with
      | inl e => inl e
      | inr s' => for_each rest body s'
      end
  end.

(** [range(n)]: 0, 1, ..., n-1, empty when n <= 0. *)
Fixpoint range_from (start : Z) (count : nat) : list Z :=
  match count with
  | O => []
  | S count' => start :: range_from (start + 1) count'
  end.

Definition range (n : Z) : list Z := range_from 0 (Z.to_nat n).

Section Snippets.
Context {rt : Runtime}.

(** ['<prefix>{:.<digits>f}<suffix>'.format(v)] *)
Definition format_fixed (prefix : string) (digits : nat) (v : pyval)
    (suffix : string) : Res string :=
  res_bind (as_float v) (fun x =>
    inr (prefix ++ format_float_fixed digits x ++ suffix)%string).

(** ** Timer

<<
class Timer:
    _start_time = None
    @classmethod
    def start_measure(cls):
        cls._start_time = time.perf_counter()

    @classmethod
    def print_time(cls):
        time_elapsed = time.perf_counter() - cls._start_time
        print('Time elapsed: {:.5f} s'.format(time_elapsed))
>> *)
Definition start_measure : M unit :=
  t <- perf_counter ;;
  set_start_time (VFloat t).

Definition print_time : M unit :=
  now <- perf_counter ;;
  start <- get_start_time ;;
  time_elapsed <- lift (py_sub (VFloat now) start) ;;
  text <- lift (format_fixed "Time elapsed: " 5 time_elapsed " s") ;;
  print text.

(** ** The synthetic workload

<<
def f(x):
    return 10.0 * sin(x)

def compute(n):
    x = 1
    for i in range(n):
        x = f(x)
    return x
>> *)
Definition f (x : pyval) : Res pyval :=
  res_bind (as_float x) (fun a =>
  res_bind (math_sin a) (fun s =>
    inr (VFloat (10 * s)%float))).

Definition compute (n : Z) : Res pyval :=
  for_each (range n) (fun _ x => f x) (VInt 1).

(**
<<
def fun1(): return compute(3*10**5)
def fun2(): return compute(5*10**5)
def fun3():
    sleep_()
    return compute(7*10**5)
def sleep_():
    sleep(0.1)
>> *)
Definition fun1 : Res pyval := compute (3 * 10 ^ 5).
Definition fun2 : Res pyval := compute (5 * 10 ^ 5).

Definition sleep_ : M unit := sleep tenth.

Definition fun3 : M pyval :=
  sleep_ ;;
  lift (compute (7 * 10 ^ 5)).

(**
<<
def main():
    sum = fun1() + fun2() + fun3()
    sleep_()
    print('Calcuated sum: {:.3f}\n'.format(sum))
>>
    The sum associates to the left and its operands are evaluated left
    to right, so the first addition happens before [fun3] is called. *)
Definition main : M unit :=
  a <- lift fun1 ;;
  b <- lift fun2 ;;
  ab <- lift (py_add a b) ;;
  c <- fun3 ;;
  sum <- lift (py_add ab c) ;;
  sleep_ ;;
  text <- lift (format_fixed "Calcuated sum: " 3 sum newline) ;;
  print text.

(** ** The profile decorator

<<
def profile(func):
    def inner( *args, **kwargs):
        pr = cProfile.Profile()
        pr.enable()
        ret_val = func( *args, **kwargs)
        pr.disable()
        ios = io.StringIO()
        ps = pstats.Stats(pr, stream=ios)
        ps.print_stats()
        print(ios.getvalue())
        return ret_val
    return inner
>>
    Creating the profiler and the string buffer touches nothing the
    snippets can see; the report is printed as one opaque item. There is
    no [try]/[finally]: when [func] raises, the lines after the call are
    not executed.

    [pstats.Stats(pr, stream=ios)] raises [TypeError] when the profiler
    holds no record at all. Whether it holds one depends on what the
    interpreter reported to it between [pr.enable()] and that line, which
    is a matter of the callable being wrapped and of the library, not of
    the world modelled here; so a callable is described by two things:
    what calling it does ([call_body]) and whether a profiler switched on
    right before the call, in the given world, holds a record when the
    statistics are built ([call_recorded]). *)
Definition pyfun : Type := list pyval -> list (string * pyval) -> M pyval.

Record callable : Type := mkCallable {
  call_body : pyfun;
  call_recorded : list pyval -> list (string * pyval) -> World -> bool
}.

(** A function defined with [def] whose body leaves the profiler's own
    records alone: its call is reported to the profiler when it is
    entered, so there is always a record. Every function of the notebook
    is of this kind. *)
Definition plain_def (body : pyfun) : callable :=
  mkCallable body (fun _ _ _ => true).

Definition profile (func : callable) : pyfun :=
  fun args kwargs w =>
    (set_profiling true ;;
     ret_val <- call_body func args kwargs ;;
     set_profiling false ;;
     (if call_recorded func args kwargs w
      then emit EvPrintStats
      else lift (inl TypeError)) ;;
     ret ret_val) w.

(**
<<
@profile
def main_with_prof():
    sum = fun1() + fun2() + fun3()
    sleep_()
    print('Calcuated sum: {:.3f}\n'.format(sum))
>>
    The body is the body of [main]; the function takes no arguments and
    returns [None]. *)
Definition main_with_prof_undecorated : pyfun :=
  fun args kwargs =>
    match args, kwargs with
    | [], [] => main ;; ret VNone
    | _, _ => lift (inl TypeError)
    end.

Definition main_with_prof : pyfun :=
  profile (plain_def main_with_prof_undecorated).

End Snippets.

(** ** Sessions

    The top-level code of the notebook calls the functions above one
    after the other. Each call stands on its own (a statement of a cell):
    when it raises, that call is over, and the world it left is the one
    the next call sees. *)
Inductive call : Type :=
| CallStartMeasure            (* Timer.start_measure() *)
| CallPrintTime               (* Timer.print_time() *)
| CallSleep_                  (* sleep_() *)
| CallFun3                    (* fun3() *)
| CallMain                    (* main() *)
| CallMainWithProf.           (* main_with_prof() *)

Section Sessions.
Context {rt : Runtime}.

Definition run_call (c : call) : M unit :=
  match c with
  | CallStartMeasure => start_measure
  | CallPrintTime => print_time
  | CallSleep_ => sleep_
  | CallFun3 => fun3 ;; ret tt
  | CallMain => main
  | CallMainWithProf => main_with_prof [] [] ;; ret tt
  end.

Fixpoint run_calls (cs : list call) (w : World) : World :=
  match cs with
  | [] => w
  | c :: rest => run_calls rest (world_after (run_call c) w)
  end.

End Sessions.

(** ** Vocabulary of the statements *)

Section Vocabulary.
Context {rt : Runtime}.

(** The line [print_time] writes when the clock reads [now] and the
    timer was started at [start]. *)
Definition elapsed_line (now start : float) : string :=
  ("Time elapsed: " ++ format_float_fixed 5 (now - start)%float ++ " s")%string.

(** The line [main] writes for the sum [x]. *)
Definition sum_line (x : float) : string :=
  ("Calcuated sum: " ++ format_float_fixed 3 x ++ newline)%string.

(** The n-fold iterate of [f] on [x]: f(f(...f(x)...)), the innermost
    application first; it raises as soon as one application does. *)
Fixpoint iterate_f (k : nat) (x : pyval) : Res pyval :=
  match k with
  | O => inr x
  | S k' => res_bind (iterate_f k' x) f
  end.

End Vocabulary.

(** The world [w] with the profile hook set to [b]. *)
Definition with_profiling (b : bool) (w : World) : World :=
  mkWorld (Timer_start_time w) (clock w) (ticks w) (trace w) b.

(** *** Reading a session as a history

    Only the two methods of [Timer] read the clock, one reading each. *)
Definition reads_clock (c : call) : bool :=
  match c with
  | CallStartMeasure | CallPrintTime => true
  | _ => false
  end.

Definition readings (cs : list call) : nat :=
  List.length (filter reads_clock cs).

(** The index of the clock reading taken by the most recent
    [start_measure] of a history whose first reading has index [tick];
    [acc] is the answer for the history before it. *)
Fixpoint last_start (cs : list call) (tick : nat) (acc : option nat)
    : option nat :=
  match cs with
  | [] => acc
  | CallStartMeasure :: rest => last_start rest (S tick) (Some tick)
  | CallPrintTime :: rest => last_start rest (S tick) acc
  | _ :: rest => last_start rest tick acc
  end.

(** [start_measure] has stored a reading. *)
Definition started (w : World) : Prop :=
  exists t, Timer_start_time w = VFloat t.

(** *** Frames *)

(** The computation does nothing but append events (sleeps, output). *)
Definition only_emits {A} (m : M A) : Prop :=
  forall w, exists evs,
    world_after m w =
      mkWorld (Timer_start_time w) (clock w) (ticks w) (trace w ++ evs)
              (profiling w).

(** The computation leaves the timer's slot and the clock alone. *)
Definition keeps_timer {A} (m : M A) : Prop :=
  forall w,
    Timer_start_time (world_after m w) = Timer_start_time w /\
    clock (world_after m w) = clock w /\
    ticks (world_after m w) = ticks w.

(** ** The cells that call the functions

    The notebook's top-level code around [fib] and [Timer]. *)

(** [str(n)] of an integer, as [print] renders it. *)
Definition int_str (z : Z) : string := NilZero.string_of_int (Z.to_int z).

(** [str(x)] of a float, as [print] renders it: library code. *)
Class FloatRepr : Type := {
  float_str : float -> string
}.

(** What the interpreter raises when the call stack is exhausted. *)
Definition RecursionError : exn := UserError "RecursionError".

(** A call [fib(n)] from top-level code, with room for [limit] nested
    activations of [fib] on the interpreter's stack. *)
Definition call_fib (limit : nat) (n : Z) : M Z :=
  lift (match fib limit n with
        | Some v => inr v
        | None => inl RecursionError
        end).

Section Cells.
Context {rt : Runtime} {fr : FloatRepr}.

(**
<<
start_time = time.perf_counter()
print(fib(30))
time_elapsed = time.perf_counter() - start_time
print('Time elapsed:', time_elapsed, 's')
>>
    [print] joins its arguments with single spaces. The cell leaves two
    module-level names behind, [start_time] and [time_elapsed], which
    nothing else reads; they are the result of the computation. *)
Definition timing_cell (limit : nat) : M (float * float) :=
  start_time <- perf_counter ;;
  v <- call_fib limit 30 ;;
  print (int_str v) ;;
  now <- perf_counter ;;
  let time_elapsed := (now - start_time)%float in
  print ("Time elapsed: " ++ float_str time_elapsed ++ " s")%string ;;
  ret (start_time, time_elapsed).

(**
<<
Timer.start_measure()
print(fib(32))
Timer.print_time()
print(fib(31))
Timer.print_time()
Timer.start_measure()
print(fib(35))
Timer.print_time()
>> *)
Definition timer_demo_cell (limit : nat) : M unit :=
  start_measure ;;
  v32 <- call_fib limit 32 ;;
  print (int_str v32) ;;
  print_time ;;
  v31 <- call_fib limit 31 ;;
  print (int_str v31) ;;
  print_time ;;
  start_measure ;;
  v35 <- call_fib limit 35 ;;
  print (int_str v35) ;;
  print_time.

End Cells.

(** The computation never removes or rewrites what is already in the
    trace. *)
Definition grows_trace {A} (m : M A) : Prop :=
  forall w, exists evs, trace (world_after m w) = trace w ++ evs.

(** ** Fixtures for concrete runs

    A stand-in runtime whose sine is a bounded rational function and
    whose float rendering is a fixed placeholder, and a clock that reads
    0.0, 0.5, 1.0, ... *)
Definition toy_sin (x : float) : Res float :=
  inr (x / (1 + x * x))%float.

#[local] Instance toy_runtime : Runtime := {|
  math_sin := toy_sin;
  format_float_fixed := fun _ _ => "#"%string
|}.

Definition half_second_clock (k : nat) : float :=
  (PrimFloat.of_uint63 (Uint63.of_Z (Z.of_nat k)) / 2)%float.




(** A runtime whose sine makes [f] count upwards by about one per
    round and gives up with [ValueError] from [threshold] on, and a
    placeholder for [str] of a float. *)
Definition ramp_sin (threshold x : float) : Res float :=
  if (x <? threshold)%float then inr ((x + 1) / 10)%float
  else inl ValueError.

Definition ramp_runtime (threshold : float) : Runtime := {|
  math_sin := ramp_sin threshold;
  format_float_fixed := fun _ _ => "#"%string
|}.

#[local] Instance toy_float_repr : FloatRepr := {|
  float_str := fun _ => "?"%string
|}.

(* ================================================================== *)
(** * Part II: properties *)
(* ================================================================== *)

(** ** fib: unfolding, budget, values *)

Lemma fib_base (d : nat) (n : Z) :
  n = 0 \/ n = 1 -> fib (S d) n = Some 1.
Proof.
  intros [-> | ->]; reflexivity.
Qed.

Lemma fib_step (d : nat) (n : Z) :
  n <> 0 -> n <> 1 ->
  fib (S d) n =
    match fib d (n - 1) with
    | None => None
    | Some a =>
        match fib d (n - 2) with
        | None => None
        | Some b => Some (a + b)
        end
    end.
Proof.
  intros H0 H1. cbn [fib].
  apply Z.eqb_neq in H0, H1. rewrite H0, H1. reflexivity.
Qed.

(** A larger recursion budget never changes an answer already obtained. *)
Lemma fib_depth_mono (d : nat) :
  forall n v, fib d n = Some v ->
  forall d', (d <= d')%nat -> fib d' n = Some v.
Proof.
  induction d as [| d IH]; intros n v H d' Hle; [discriminate |].
  destruct d' as [| d']; [lia |].
  destruct (Z.eq_dec n 0) as [E0 | N0];
    [rewrite fib_base in * by auto; assumption |].
  destruct (Z.eq_dec n 1) as [E1 | N1];
    [rewrite fib_base in * by auto; assumption |].
  rewrite fib_step in * by assumption.
  destruct (fib d (n - 1)) as [a |] eqn:Ea; [| discriminate].
  destruct (fib d (n - 2)) as [b |] eqn:Eb; [| discriminate].
  rewrite (IH _ _ Ea d'), (IH _ _ Eb d') by lia.
  assumption.
Qed.

(** A budget of [max 1 n] nested calls is enough for a nonnegative [n]. *)
Lemma fib_enough_depth (d : nat) :
  forall n, 0 <= n -> Z.max 1 n <= Z.of_nat d ->
  exists v, fib d n = Some v /\ 1 <= v.
Proof.
  induction d as [| d IH]; intros n Hn Hd; [lia |].
  destruct (Z.eq_dec n 0) as [E0 | N0];
    [exists 1; rewrite fib_base by auto; split; [reflexivity | lia] |].
  destruct (Z.eq_dec n 1) as [E1 | N1];
    [exists 1; rewrite fib_base by auto; split; [reflexivity | lia] |].
  destruct (IH (n - 1)) as (a & Ha & Ha1); [lia | lia |].
  destruct (IH (n - 2)) as (b & Hb & Hb1); [lia | lia |].
  exists (a + b). rewrite fib_step, Ha, Hb by assumption.
  split; [reflexivity | lia].
Qed.

(** ... and no smaller budget is, and no budget at all for a negative [n]. *)
Lemma fib_depth_needed (d : nat) :
  forall n v, fib d n = Some v -> 0 <= n /\ Z.max 1 n <= Z.of_nat d.
Proof.
  induction d as [| d IH]; intros n v H; [discriminate |].
  destruct (Z.eq_dec n 0) as [E0 | N0]; [lia |].
  destruct (Z.eq_dec n 1) as [E1 | N1]; [lia |].
  rewrite fib_step in H by assumption.
  destruct (fib d (n - 1)) as [a |] eqn:Ea; [| discriminate].
  apply IH in Ea. lia.
Qed.

Lemma fib_returns_unique (n v v' : Z) :
  fib_returns n v -> fib_returns n v' -> v = v'.
Proof.
  intros [d Hd] [d' Hd'].
  apply fib_depth_mono with (d' := Nat.max d d') in Hd; [| lia].
  apply fib_depth_mono with (d' := Nat.max d d') in Hd'; [| lia].
  congruence.
Qed.

Lemma fib_returns_step (n a b : Z) :
  2 <= n -> fib_returns (n - 1) a -> fib_returns (n - 2) b ->
  fib_returns n (a + b).
Proof.
  intros Hn [d Hd] [d' Hd'].
  exists (S (Nat.max d d')).
  rewrite fib_step by lia.
  rewrite (fib_depth_mono _ _ _ Hd), (fib_depth_mono _ _ _ Hd') by lia.
  reflexivity.
Qed.

Lemma fib_returns_nonneg (n : Z) :
  0 <= n -> exists v, fib_returns n v /\ 1 <= v.
Proof.
  intros Hn.
  destruct (fib_enough_depth (S (Z.to_nat n)) n) as (v & Hv & Hv1);
    [assumption | lia |].
  exists v. split; [exists (S (Z.to_nat n)); assumption | assumption].
Qed.

(** *** The textbook sequence *)

Lemma fibonacci_step (k : nat) :
  fibonacci (S (S k)) = fibonacci (S k) + fibonacci k.
Proof.
  unfold fibonacci. cbn [fibonacci_pair].
  destruct (fibonacci_pair k) as [a b]. cbn. lia.
Qed.

Lemma fib_fibonacci_pair (k : nat) :
  fib (S k) (Z.of_nat k) = Some (fibonacci (S k)) /\
  fib (S (S k)) (Z.of_nat (S k)) = Some (fibonacci (S (S k))).
Proof.
  induction k as [| k [IH1 IH2]].
  - split; reflexivity.
  - split; [assumption |].
    rewrite fib_step by lia.
    replace (Z.of_nat (S (S k)) - 1) with (Z.of_nat (S k)) by lia.
    replace (Z.of_nat (S (S k)) - 2) with (Z.of_nat k) by lia.
    rewrite IH2.
    rewrite (fib_depth_mono _ _ _ IH1) by lia.
    rewrite (fibonacci_step (S k)). reflexivity.
Qed.

(** *** The call count *)

Lemma fib_profiled_unfold (d : nat) (n : Z) :
  fib_profiled (S d) n =
    if (n =? 0) || (n =? 1) then Some (1, 1)
    else
      match fib_profiled d (n - 1) with
      | None => None
      | Some (a, ca) =>
          match fib_profiled d (n - 2) with
          | None => None
          | Some (b, cb) => Some (a + b, 1 + ca + cb)
          end
      end.
Proof. reflexivity. Qed.

Lemma fib_profiled_value (d : nat) :
  forall n, fib d n = option_map fst (fib_profiled d n).
Proof.
  induction d as [| d IH]; intros n; [reflexivity |].
  rewrite fib_profiled_unfold. cbn [fib].
  destruct ((n =? 0) || (n =? 1)); [reflexivity |].
  rewrite (IH (n - 1)), (IH (n - 2)).
  destruct (fib_profiled d (n - 1)) as [[a ca] |]; [| reflexivity].
  destruct (fib_profiled d (n - 2)) as [[b cb] |]; reflexivity.
Qed.

Lemma fib_profiled_count (d : nat) :
  forall n v c, fib_profiled d n = Some (v, c) -> c = 2 * v - 1.
Proof.
  induction d as [| d IH]; intros n v c H; [discriminate |].
  rewrite fib_profiled_unfold in H.
  destruct ((n =? 0) || (n =? 1)); [injection H as <- <-; reflexivity |].
  destruct (fib_profiled d (n - 1)) as [[a ca] |] eqn:Ea; [| discriminate].
  destruct (fib_profiled d (n - 2)) as [[b cb] |] eqn:Eb; [| discriminate].
  assert (Hv : a + b = v) by congruence.
  assert (Hc : 1 + ca + cb = c) by congruence.
  apply IH in Ea. apply IH in Eb. lia.
Qed.

Lemma fib_profiled_of_fib (d : nat) (n v : Z) :
  fib d n = Some v -> fib_profiled d n = Some (v, 2 * v - 1).
Proof.
  rewrite fib_profiled_value.
  destruct (fib_profiled d n) as [[v' c] |] eqn:E; [| discriminate].
  cbn. intros [= ->].
  rewrite (fib_profiled_count _ _ _ _ E). reflexivity.
Qed.

(** *** Claims about fib *)

(** C1. [fib] returns the mathematically correct value for its input:
    called on the natural number [k] it returns the Fibonacci number
    F(k+1) of the textbook sequence 0, 1, 1, 2, 3, 5, ... (the code
    starts its own sequence at 1, 1), and [fib(30)], the call whose
    result the notebook prints, returns 1346269. *)
Theorem fib_correct :
  fib_returns 30 1346269 /\
  fibonacci 31 = 1346269 /\
  forall k : nat, fib_returns (Z.of_nat k) (fibonacci (S k)).
Proof.
  split; [exists 30%nat; vm_compute; reflexivity |].
  split; [vm_compute; reflexivity |].
  intros k. exists (S k). apply fib_fibonacci_pair.
Qed.

(** C2. [fib] computes the recurrence, and does so without memoization:
    [fib(0)] and [fib(1)] return 1; for every [n >= 2] the calls
    [fib(n-1)] and [fib(n-2)] return some [a] and [b] and [fib(n)]
    returns [a + b]; the returned value is unique. Under a call-counting
    profiler the activation for [n >= 2] costs one call plus the full
    cost of both sub-calls, nothing being reused, so that a call
    returning [v] makes [2 * v - 1] calls of [fib] in all. *)
Theorem fib_recurrence :
  fib_returns 0 1 /\
  fib_returns 1 1 /\
  (forall n, 2 <= n ->
     exists a b,
       fib_returns (n - 1) a /\ fib_returns (n - 2) b /\
       fib_returns n (a + b)) /\
  (forall n v v', fib_returns n v -> fib_returns n v' -> v = v') /\
  (forall n, 2 <= n ->
     exists d a ca b cb,
       fib_profiled d (n - 1) = Some (a, ca) /\
       fib_profiled d (n - 2) = Some (b, cb) /\
       fib_profiled (S d) n = Some (a + b, 1 + ca + cb)) /\
  (forall d n v, fib d n = Some v ->
     fib_profiled d n = Some (v, 2 * v - 1)).
Proof.
  split; [exists 1%nat; reflexivity |].
  split; [exists 1%nat; reflexivity |].
  split.
  { intros n Hn.
    destruct (fib_returns_nonneg (n - 1)) as (a & Ha & _); [lia |].
    destruct (fib_returns_nonneg (n - 2)) as (b & Hb & _); [lia |].
    exists a, b. repeat split; try assumption.
    apply fib_returns_step; assumption. }
  split; [exact fib_returns_unique |].
  split; [| exact fib_profiled_of_fib].
  intros n Hn.
  set (d := Z.to_nat n).
  destruct (fib_enough_depth d (n - 1)) as (a & Ha & _); [lia | lia |].
  destruct (fib_enough_depth d (n - 2)) as (b & Hb & _); [lia | lia |].
  apply fib_profiled_of_fib in Ha, Hb.
  exists d, a, (2 * a - 1), b, (2 * b - 1).
  repeat split; try assumption.
  rewrite fib_profiled_unfold, Ha, Hb.
  replace ((n =? 0) || (n =? 1)) with false; [reflexivity |].
  symmetry. apply orb_false_iff. split; apply Z.eqb_neq; lia.
Qed.

Lemma fib_recurrence_witness :
  2 <= 5 /\
  (exists a b, fib_returns 4 a /\ fib_returns 3 b /\ fib_returns 5 (a + b)) /\
  fib_profiled 5 5 = Some (8, 15).
Proof.
  split; [lia |]. split.
  - apply (proj1 (proj2 (proj2 fib_recurrence)) 5). lia.
  - apply (proj2 (proj2 (proj2 (proj2 (proj2 fib_recurrence)))) 5%nat 5 8).
    reflexivity.
Defined.

(** C8. [fib] terminates exactly on the nonnegative integers: it returns
    a value if and only if [n >= 0], and then a recursion depth of
    [max 1 n] is both sufficient and necessary, every nested call being
    on a smaller nonnegative argument until 0 or 1 is reached; for a
    negative argument no recursion depth suffices, the recursion never
    reaches a base case. *)
Theorem fib_terminates (n : Z) :
  ((exists v, fib_returns n v) <-> 0 <= n) /\
  (fib_diverges n <-> n < 0) /\
  (forall d : nat,
     (exists v, fib d n = Some v) <-> 0 <= n /\ Z.max 1 n <= Z.of_nat d).
Proof.
  assert (Hdepth : forall d : nat,
    (exists v, fib d n = Some v) <-> 0 <= n /\ Z.max 1 n <= Z.of_nat d).
  { intros d. split.
    - intros [v Hv]. eapply fib_depth_needed; eassumption.
    - intros [Hn Hd].
      destruct (fib_enough_depth d n Hn Hd) as (v & Hv & _).
      exists v; assumption. }
  split; [| split]; [| | exact Hdepth].
  - split.
    + intros (v & d & Hd). apply (fib_depth_needed _ _ _ Hd).
    + intros Hn. destruct (fib_returns_nonneg n Hn) as (v & Hv & _).
      exists v; assumption.
  - split.
    + intros Hdiv.
      destruct (Z_lt_le_dec n 0) as [Hneg | Hn]; [assumption |].
      destruct (fib_returns_nonneg n Hn) as (v & [d Hd] & _).
      rewrite Hdiv in Hd. discriminate.
    + intros Hneg d.
      destruct (fib d n) as [v |] eqn:E; [| reflexivity].
      apply fib_depth_needed in E. lia.
Qed.

Lemma fib_terminates_witness :
  (exists v, fib_returns 7 v) /\ fib_diverges (-1) /\
  (exists v, fib 7 7 = Some v).
Proof.
  split; [| split].
  - apply (proj1 (fib_terminates 7)). lia.
  - apply (proj1 (proj2 (fib_terminates (-1)))). lia.
  - apply (proj2 (proj2 (fib_terminates 7)) 7%nat). lia.
Defined.

(** ** Frames: what a computation can and cannot touch *)

Lemma only_emits_ret {A} (a : A) : only_emits (ret a).
Proof.
  intros w. exists []. cbn. rewrite app_nil_r. destruct w; reflexivity.
Qed.

Lemma only_emits_lift {A} (r : Res A) : only_emits (lift r).
Proof.
  intros w. exists []. cbn. rewrite app_nil_r. destruct w; reflexivity.
Qed.

Lemma only_emits_emit (ev : event) : only_emits (emit ev).
Proof.
  intros w. exists [ev]. reflexivity.
Qed.

Lemma only_emits_bind {A B} (m : M A) (k : A -> M B) :
  only_emits m -> (forall a, only_emits (k a)) -> only_emits (bind m k).
Proof.
  intros Hm Hk w. destruct (Hm w) as [evs1 E1].
  unfold world_after, bind in *.
  destruct (m w) as [[e | a] w1]; cbn in E1 |- *.
  - exists evs1. exact E1.
  - destruct (Hk a w1) as [evs2 E2]. unfold world_after in E2.
    rewrite E2. subst w1. cbn.
    exists (evs1 ++ evs2). rewrite app_assoc. reflexivity.
Qed.

Lemma keeps_timer_bind {A B} (m : M A) (k : A -> M B) :
  keeps_timer m -> (forall a, keeps_timer (k a)) -> keeps_timer (bind m k).
Proof.
  intros Hm Hk w. specialize (Hm w).
  unfold world_after, bind in *.
  destruct (m w) as [[e | a] w1]; cbn in Hm |- *; [exact Hm |].
  specialize (Hk a w1). unfold world_after in Hk.
  destruct Hm as (H1 & H2 & H3), Hk as (K1 & K2 & K3).
  repeat split; congruence.
Qed.

Lemma only_emits_keeps_timer {A} (m : M A) : only_emits m -> keeps_timer m.
Proof.
  intros H w. destruct (H w) as [evs E]. rewrite E. cbn. auto.
Qed.

Lemma keeps_timer_set_profiling (b : bool) : keeps_timer (set_profiling b).
Proof.
  intros w. cbn. auto.
Qed.

Ltac frame_steps :=
  repeat first
    [ apply only_emits_ret
    | apply only_emits_lift
    | apply only_emits_emit
    | apply only_emits_bind; [| intro] ].

Section TimerAndWorkloadFrames.
Context {rt : Runtime}.

Lemma only_emits_sleep_ : only_emits sleep_.
Proof. unfold sleep_, sleep. frame_steps. Qed.

Lemma only_emits_fun3 : only_emits fun3.
Proof. unfold fun3, sleep_, sleep. frame_steps. Qed.

Lemma only_emits_main : only_emits main.
Proof. unfold main, fun3, sleep_, sleep, print. frame_steps. Qed.

Lemma keeps_timer_profile (func : callable) args kwargs :
  keeps_timer (call_body func args kwargs) ->
  keeps_timer (profile func args kwargs).
Proof.
  intros Hf w.
  assert (K : forall b : bool, keeps_timer
    (set_profiling true ;;
     ret_val <- call_body func args kwargs ;;
     set_profiling false ;;
     (if b then emit EvPrintStats else lift (inl TypeError)) ;;
     ret ret_val)).
  { intros b.
    apply keeps_timer_bind; [apply keeps_timer_set_profiling | intros _].
    apply keeps_timer_bind; [exact Hf | intros v].
    apply keeps_timer_bind; [apply keeps_timer_set_profiling | intros _].
    apply only_emits_keeps_timer. destruct b; frame_steps. }
  exact (K (call_recorded func args kwargs w) w).
Qed.

Lemma keeps_timer_main_with_prof : keeps_timer (main_with_prof [] []).
Proof.
  apply keeps_timer_profile. cbn.
  apply only_emits_keeps_timer.
  apply only_emits_bind; [apply only_emits_main | intros _; apply only_emits_ret].
Qed.

(** ** Timer: single steps *)

Lemma start_measure_run (w : World) :
  start_measure w =
    (inr tt,
     mkWorld (VFloat (clock w (ticks w))) (clock w) (S (ticks w)) (trace w)
             (profiling w)).
Proof. reflexivity. Qed.

Lemma print_time_started (w : World) (t : float) :
  Timer_start_time w = VFloat t ->
  print_time w =
    (inr tt,
     mkWorld (VFloat t) (clock w) (S (ticks w))
             (trace w ++ [EvPrint (elapsed_line (clock w (ticks w)) t)])
             (profiling w)).
Proof.
  intros H. unfold print_time, bind, perf_counter, get_start_time. cbn.
  rewrite H. reflexivity.
Qed.

Lemma print_time_unstarted (w : World) :
  Timer_start_time w = VNone ->
  print_time w =
    (inl TypeError,
     mkWorld VNone (clock w) (S (ticks w)) (trace w) (profiling w)).
Proof.
  intros H. unfold print_time, bind, perf_counter, get_start_time. cbn.
  rewrite H. reflexivity.
Qed.

(** Whatever the slot holds and whether or not it raises, [print_time]
    takes one clock reading and does not write the slot. *)
Lemma print_time_timer_view (w : World) :
  Timer_start_time (world_after print_time w) = Timer_start_time w /\
  clock (world_after print_time w) = clock w /\
  ticks (world_after print_time w) = S (ticks w).
Proof.
  unfold world_after, print_time, bind, perf_counter, get_start_time, lift.
  cbv beta iota zeta.
  destruct (py_sub _ _) as [e | v]; cbn; [auto |].
  destruct (format_fixed _ _ _ _) as [e | text]; cbn; auto.
Qed.

End TimerAndWorkloadFrames.

(** ** Timer: sessions *)

Section TimerSessions.
Context {rt : Runtime}.

(** What one call of a session does to the slot and the clock. *)
Lemma run_call_timer_view (c : call) (w : World) :
  clock (world_after (run_call c) w) = clock w /\
  ticks (world_after (run_call c) w) =
    (if reads_clock c then S (ticks w) else ticks w) /\
  Timer_start_time (world_after (run_call c) w) =
    match c with
    | CallStartMeasure => VFloat (clock w (ticks w))
    | _ => Timer_start_time w
    end.
Proof.
  assert (K : forall m : M unit, keeps_timer m ->
            clock (world_after m w) = clock w /\
            ticks (world_after m w) = ticks w /\
            Timer_start_time (world_after m w) = Timer_start_time w).
  { intros m Hm. destruct (Hm w) as (H1 & H2 & H3). auto. }
  destruct c; cbn [run_call reads_clock].
  - cbn. auto.
  - destruct (print_time_timer_view w) as (H1 & H2 & H3). auto.
  - apply K, only_emits_keeps_timer, only_emits_sleep_.
  - apply K, only_emits_keeps_timer.
    apply only_emits_bind; [apply only_emits_fun3 | intros _; apply only_emits_ret].
  - apply K, only_emits_keeps_timer, only_emits_main.
  - apply K. apply keeps_timer_bind; [apply keeps_timer_main_with_prof |].
    intros _. apply only_emits_keeps_timer, only_emits_ret.
Qed.

Lemma readings_cons (c : call) (cs : list call) :
  readings (c :: cs) = ((if reads_clock c then 1 else 0) + readings cs)%nat.
Proof.
  unfold readings. cbn [filter]. destruct (reads_clock c); reflexivity.
Qed.

(** The slot always holds the reading of the most recent
    [start_measure] of the history, and the clock has advanced by the
    number of readings taken. *)
Lemma run_calls_timer (cs : list call) :
  forall w acc i,
    (forall j, acc = Some j -> Timer_start_time w = VFloat (clock w j)) ->
    last_start cs (ticks w) acc = Some i ->
    Timer_start_time (run_calls cs w) = VFloat (clock w i) /\
    clock (run_calls cs w) = clock w /\
    ticks (run_calls cs w) = (ticks w + readings cs)%nat.
Proof.
  induction cs as [| c cs IH]; intros w acc i Hacc Hlast.
  - cbn in *. split; [apply Hacc; assumption |].
    split; [reflexivity | unfold readings; cbn; lia].
  - cbn [run_calls]. rewrite readings_cons.
    destruct (run_call_timer_view c w) as (Hc & Ht & Hs).
    set (w1 := world_after (run_call c) w) in *.
    destruct c; cbn [last_start reads_clock] in *.
    + destruct (IH w1 (Some (ticks w)) i) as (A & B & C).
      * intros j [= <-]. rewrite Hs, Hc. reflexivity.
      * rewrite Ht. exact Hlast.
      * rewrite A, B, C, Hc, Ht. repeat split. lia.
    + destruct (IH w1 acc i) as (A & B & C).
      * intros j Hj. rewrite Hs, Hc. auto.
      * rewrite Ht. exact Hlast.
      * rewrite A, B, C, Hc, Ht. repeat split. lia.
    + destruct (IH w1 acc i) as (A & B & C);
        [intros j Hj; rewrite Hs, Hc; auto | rewrite Ht; exact Hlast |].
      rewrite A, B, C, Hc, Ht. repeat split.
    + destruct (IH w1 acc i) as (A & B & C);
        [intros j Hj; rewrite Hs, Hc; auto | rewrite Ht; exact Hlast |].
      rewrite A, B, C, Hc, Ht. repeat split.
    + destruct (IH w1 acc i) as (A & B & C);
        [intros j Hj; rewrite Hs, Hc; auto | rewrite Ht; exact Hlast |].
      rewrite A, B, C, Hc, Ht. repeat split.
    + destruct (IH w1 acc i) as (A & B & C);
        [intros j Hj; rewrite Hs, Hc; auto | rewrite Ht; exact Hlast |].
      rewrite A, B, C, Hc, Ht. repeat split.
Qed.

(** Without a [start_measure] in it, a session leaves the slot alone. *)
Lemma run_calls_no_start (cs : list call) :
  forall w, ~ In CallStartMeasure cs ->
  Timer_start_time (run_calls cs w) = Timer_start_time w.
Proof.
  induction cs as [| c cs IH]; intros w Hnot; [reflexivity |].
  cbn [run_calls]. rewrite IH by (intros Hin; apply Hnot; right; exact Hin).
  destruct (run_call_timer_view c w) as (_ & _ & Hs). rewrite Hs.
  destruct c; try reflexivity.
  exfalso. apply Hnot. left. reflexivity.
Qed.

Lemma run_calls_started_kept (cs : list call) :
  forall w, started w -> started (run_calls cs w).
Proof.
  induction cs as [| c cs IH]; intros w Hw; [exact Hw |].
  cbn [run_calls]. apply IH.
  destruct (run_call_timer_view c w) as (_ & _ & Hs).
  unfold started. rewrite Hs.
  destruct c; try exact Hw. eexists; reflexivity.
Qed.

(** With one, the slot holds a float from then on. *)
Lemma run_calls_started (cs : list call) :
  forall w, In CallStartMeasure cs -> started (run_calls cs w).
Proof.
  induction cs as [| c cs IH]; intros w Hin; [destruct Hin |].
  cbn [run_calls]. destruct Hin as [-> | Hin]; [| apply IH; exact Hin].
  apply run_calls_started_kept. eexists; reflexivity.
Qed.

End TimerSessions.

(** ** Claims about Timer *)

Section TimerClaims.
Context {rt : Runtime}.

(** C3. The Timer records a start instant and reports the elapsed
    time on demand. [start_measure] stores the current reading of the
    performance counter in the class-level slot [_start_time]. After any
    session of calls in which [start_measure] occurs, the slot holds the
    reading taken by the most recent [start_measure], and the next
    [print_time] succeeds and prints the current reading minus that
    stored value. *)
Theorem timer_reports_elapsed :
  (forall w,
     start_measure w =
       (inr tt,
        mkWorld (VFloat (clock w (ticks w))) (clock w) (S (ticks w))
                (trace w) (profiling w))) /\
  (forall cs w i,
     last_start cs (ticks w) None = Some i ->
     let w' := run_calls cs w in
     let now := clock w (ticks w + readings cs) in
     Timer_start_time w' = VFloat (clock w i) /\
     print_time w' =
       (inr tt,
        mkWorld (VFloat (clock w i)) (clock w) (S (ticks w + readings cs))
                (trace w' ++ [EvPrint (elapsed_line now (clock w i))])
                (profiling w'))).
Proof.
  split; [exact start_measure_run |].
  intros cs w i Hlast w' now.
  destruct (run_calls_timer cs w None i) as (Hs & Hc & Ht);
    [discriminate | exact Hlast |].
  fold w' in Hs, Hc, Ht.
  split; [exact Hs |].
  rewrite (print_time_started w' _ Hs), Hc, Ht. reflexivity.
Qed.

(** C6. [start_measure] writes the slot [_start_time] and nothing
    else: output, sleeps and profiling state are as before, and the
    clock has merely been read once. [print_time] never writes the slot,
    whether it succeeds or raises. Hence two [print_time] calls in a row
    after one [start_measure] both subtract the same stored start
    reading. *)
Theorem timer_frame :
  (forall w,
     world_after start_measure w =
       mkWorld (VFloat (clock w (ticks w))) (clock w) (S (ticks w))
               (trace w) (profiling w)) /\
  (forall w,
     Timer_start_time (world_after print_time w) = Timer_start_time w) /\
  (forall w,
     let t0 := clock w (ticks w) in
     (start_measure ;; print_time ;; print_time) w =
       (inr tt,
        mkWorld (VFloat t0) (clock w) (S (S (S (ticks w))))
                (trace w ++
                   [EvPrint (elapsed_line (clock w (S (ticks w))) t0);
                    EvPrint (elapsed_line (clock w (S (S (ticks w)))) t0)])
                (profiling w))).
Proof.
  split; [reflexivity |].
  split; [intros w; apply print_time_timer_view |].
  intros w t0. unfold bind at 1. rewrite start_measure_run.
  unfold bind. rewrite (print_time_started _ t0) by reflexivity.
  rewrite (print_time_started _ t0) by reflexivity.
  cbn. rewrite <- app_assoc. reflexivity.
Qed.

(** C7. Called while the slot still holds its initial [None], that is
    before any [start_measure], [print_time] fails: the subtraction
    raises [TypeError]. This is so for every session from the initial
    world that contains no [start_measure]. Once [start_measure] has
    been called at least once, [print_time] cannot raise. *)
Theorem print_time_needs_start :
  (forall w,
     Timer_start_time w = VNone -> outcome print_time w = inl TypeError) /\
  (forall clk cs,
     ~ In CallStartMeasure cs ->
     outcome print_time (run_calls cs (initial_world clk)) = inl TypeError) /\
  (forall w cs,
     In CallStartMeasure cs ->
     outcome print_time (run_calls cs w) = inr tt).
Proof.
  assert (H1 : forall w, Timer_start_time w = VNone ->
                         outcome print_time w = inl TypeError).
  { intros w H. unfold outcome. rewrite (print_time_unstarted w H).
    reflexivity. }
  split; [exact H1 |]. split.
  - intros clk cs Hnot. apply H1.
    rewrite run_calls_no_start by exact Hnot. reflexivity.
  - intros w cs Hin.
    destruct (run_calls_started cs w Hin) as [t Ht].
    unfold outcome. rewrite (print_time_started _ t Ht). reflexivity.
Qed.

End TimerClaims.

(** A concrete session: start, print, sleep, start again, print. *)
Lemma timer_reports_elapsed_witness :
  let cs := [CallStartMeasure; CallPrintTime; CallSleep_;
             CallStartMeasure; CallPrintTime] in
  let w0 := initial_world half_second_clock in
  last_start cs (ticks w0) None = Some 2%nat /\
  Timer_start_time (run_calls cs w0) = VFloat 1%float /\
  outcome print_time (run_calls cs w0) = inr tt.
Proof.
  intros cs w0.
  assert (Hl : last_start cs (ticks w0) None = Some 2%nat) by reflexivity.
  pose proof (proj2 (@timer_reports_elapsed toy_runtime) cs w0 2%nat Hl)
    as [Hs Hp].
  split; [exact Hl |]. split.
  - rewrite Hs. vm_compute. reflexivity.
  - unfold outcome. rewrite Hp. reflexivity.
Defined.

Lemma print_time_needs_start_witness :
  let w0 := initial_world half_second_clock in
  Timer_start_time w0 = VNone /\
  outcome print_time w0 = inl TypeError /\
  outcome print_time (run_calls [CallSleep_; CallPrintTime] w0)
    = inl TypeError /\
  outcome print_time (run_calls [CallPrintTime; CallStartMeasure] w0)
    = inr tt.
Proof.
  intros w0.
  destruct (@print_time_needs_start toy_runtime) as (H1 & H2 & H3).
  split; [reflexivity |]. split; [apply H1; reflexivity |]. split.
  - apply (H2 half_second_clock [CallSleep_; CallPrintTime]).
    intros [H | [H | []]]; discriminate H.
  - apply (H3 w0 [CallPrintTime; CallStartMeasure]).
    right; left; reflexivity.
Defined.

(** ** The workload *)

Lemma res_bind_assoc {A B C} (r : Res A) (g : A -> Res B) (h : B -> Res C) :
  res_bind (res_bind r g) h = res_bind r (fun a => res_bind (g a) h).
Proof. destruct r; reflexivity. Qed.

Lemma res_bind_inr {A} (r : Res A) : res_bind r (fun a => inr a) = r.
Proof. destruct r; reflexivity. Qed.

Lemma length_range_from (count : nat) :
  forall start, List.length (range_from start count) = count.
Proof.
  induction count as [| c IH]; intros start; [reflexivity |].
  cbn [range_from List.length]. rewrite IH. reflexivity.
Qed.

Section Workload.
Context {rt : Runtime}.

(** Applying [f] once more at the end or once more at the start is the
    same thing. *)
Lemma iterate_f_shift (k : nat) (x : pyval) :
  res_bind (iterate_f k x) f = res_bind (f x) (iterate_f k).
Proof.
  induction k as [| k IH]; cbn [iterate_f].
  - cbn. symmetry. apply res_bind_inr.
  - rewrite IH at 1. apply res_bind_assoc.
Qed.

(** A loop that ignores its index iterates its body. *)
Lemma for_each_iterate (items : list Z) :
  forall x,
    for_each items (fun _ y => f y) x = iterate_f (List.length items) x.
Proof.
  induction items as [| i rest IH]; intros x; [reflexivity |].
  cbn [for_each List.length iterate_f].
  rewrite iterate_f_shift.
  destruct (f x) as [e | y]; [reflexivity |].
  cbn [res_bind]. apply IH.
Qed.

Lemma f_returns_float (x v : pyval) :
  f x = inr v -> exists y, v = VFloat y.
Proof.
  unfold f.
  destruct (as_float x) as [e | a]; [discriminate |]. cbn [res_bind].
  destruct (math_sin a) as [e | s]; [discriminate |]. cbn [res_bind].
  intros [= <-]. eexists; reflexivity.
Qed.

Lemma compute_as_iterate (n : Z) :
  compute n = iterate_f (Z.to_nat n) (VInt 1).
Proof.
  unfold compute, range. rewrite for_each_iterate, length_range_from.
  reflexivity.
Qed.

(** After at least one round the result is a float. *)
Lemma compute_returns_float (n : Z) (v : pyval) :
  1 <= n -> compute n = inr v -> exists y, v = VFloat y.
Proof.
  intros Hn. rewrite compute_as_iterate.
  destruct (Z.to_nat n) as [| k] eqn:E; [lia |].
  cbn [iterate_f].
  destruct (iterate_f k (VInt 1)) as [e | x]; [discriminate |].
  cbn [res_bind]. apply f_returns_float.
Qed.

(** C4. [compute(n)] applies the transform f(x) = 10.0 * sin(x) in a
    loop: on the float [a], [f] returns ten times the sine of [a]; on the
    integer start value 1 it returns ten times the sine of 1.0; for every
    integer [n], [compute(n)] is the n-fold iterate of [f] on the start
    value 1 (no iteration at all when [n <= 0]). [fun1], [fun2] and
    [fun3] return [compute(3*10^5)], [compute(5*10^5)] and
    [compute(7*10^5)], that is 300000, 500000 and 700000 rounds, and
    [fun3] sleeps for a tenth of a second first, whatever the computation
    then does. *)
Theorem compute_iterates :
  (forall a : float,
     f (VFloat a) = res_bind (math_sin a) (fun s => inr (VFloat (10 * s)%float))) /\
  f (VInt 1) = res_bind (math_sin 1%float) (fun s => inr (VFloat (10 * s)%float)) /\
  (forall n : Z, compute n = iterate_f (Z.to_nat n) (VInt 1)) /\
  (forall k : nat, compute (Z.of_nat k) = iterate_f k (VInt 1)) /\
  fun1 = compute (3 * 10 ^ 5) /\
  fun1 = iterate_f (Z.to_nat 300000) (VInt 1) /\
  fun2 = compute (5 * 10 ^ 5) /\
  fun2 = iterate_f (Z.to_nat 500000) (VInt 1) /\
  (forall w,
     fun3 w =
       (compute (7 * 10 ^ 5),
        mkWorld (Timer_start_time w) (clock w) (ticks w)
                (trace w ++ [EvSleep tenth]) (profiling w))) /\
  compute (7 * 10 ^ 5) = iterate_f (Z.to_nat 700000) (VInt 1).
Proof.
  split; [reflexivity |].
  split; [reflexivity |].
  split; [exact compute_as_iterate |].
  split; [intros k; rewrite compute_as_iterate, Nat2Z.id; reflexivity |].
  split; [reflexivity |].
  split; [unfold fun1; rewrite compute_as_iterate; reflexivity |].
  split; [reflexivity |].
  split; [unfold fun2; rewrite compute_as_iterate; reflexivity |].
  split; [intros w; reflexivity |].
  rewrite compute_as_iterate. reflexivity.
Qed.

(** C5. [main] computes [fun1() + fun2() + fun3()], calls [sleep_]
    once and prints the sum with three decimals. When the three
    computations return, they return floats [x], [y], [z], and [main]
    leaves exactly this behind: the sleep made inside [fun3], its own
    one sleep, and the line for [(x + y) + z]. In every case, also when
    something raises, [main] (and likewise [fun3] and [sleep_]) only
    appends events: the timer slot, the clock and the profiling state
    are as before; [f], [compute], [fun1] and [fun2] have no access to
    the world at all. *)
Theorem main_prints_sum :
  (forall w a b c,
     fun1 = inr a -> fun2 = inr b -> compute (7 * 10 ^ 5) = inr c ->
     exists x y z,
       a = VFloat x /\ b = VFloat y /\ c = VFloat z /\
       main w =
         (inr tt,
          mkWorld (Timer_start_time w) (clock w) (ticks w)
                  (trace w ++
                     [EvSleep tenth; EvSleep tenth;
                      EvPrint (sum_line (x + y + z)%float)])
                  (profiling w))) /\
  only_emits main /\ only_emits fun3 /\ only_emits sleep_.
Proof.
  split; [| split; [apply only_emits_main |
             split; [apply only_emits_fun3 | apply only_emits_sleep_]]].
  intros w a b c Ha Hb Hc.
  destruct (compute_returns_float (3 * 10 ^ 5) a) as [x ->];
    [vm_compute; discriminate | exact Ha |].
  destruct (compute_returns_float (5 * 10 ^ 5) b) as [y ->];
    [vm_compute; discriminate | exact Hb |].
  destruct (compute_returns_float (7 * 10 ^ 5) c) as [z ->];
    [vm_compute; discriminate | exact Hc |].
  exists x, y, z. repeat split.
  unfold main, fun3, bind, lift, sleep_, sleep, print, emit.
  rewrite Ha, Hb, Hc. cbn.
  rewrite <- !app_assoc. reflexivity.
Qed.

End Workload.

Lemma main_prints_sum_witness :
  exists s : float,
    @main toy_runtime (initial_world half_second_clock) =
      (inr tt,
       mkWorld VNone half_second_clock 0
               [EvSleep tenth; EvSleep tenth;
                EvPrint (@sum_line toy_runtime s)]
               false).
Proof.
  assert (Ha : exists a, @fun1 toy_runtime = inr a)
    by (vm_compute; eexists; reflexivity).
  assert (Hb : exists b, @fun2 toy_runtime = inr b)
    by (vm_compute; eexists; reflexivity).
  assert (Hc : exists c, @compute toy_runtime (7 * 10 ^ 5) = inr c)
    by (vm_compute; eexists; reflexivity).
  destruct Ha as [a Ha], Hb as [b Hb], Hc as [c Hc].
  destruct (proj1 (@main_prints_sum toy_runtime)
              (initial_world half_second_clock) a b c Ha Hb Hc)
    as (x & y & z & _ & _ & _ & Hmain).
  exists (x + y + z)%float. exact Hmain.
Defined.

(** ** The profile decorator *)

Lemma profile_when_returns (func : callable) args kwargs (w w1 : World)
    (v : pyval) :
  call_body func args kwargs (with_profiling true w) = (inr v, w1) ->
  call_recorded func args kwargs w = true ->
  profile func args kwargs w =
    (inr v,
     mkWorld (Timer_start_time w1) (clock w1) (ticks w1)
             (trace w1 ++ [EvPrintStats]) false).
Proof.
  intros H Hrec. unfold profile. rewrite Hrec.
  unfold bind, set_profiling.
  change (mkWorld (Timer_start_time w) (clock w) (ticks w) (trace w) true)
    with (with_profiling true w).
  rewrite H. reflexivity.
Qed.

Lemma profile_when_raises (func : callable) args kwargs (w w1 : World)
    (e : exn) :
  call_body func args kwargs (with_profiling true w) = (inl e, w1) ->
  profile func args kwargs w = (inl e, w1).
Proof.
  intros H. unfold profile, bind, set_profiling.
  change (mkWorld (Timer_start_time w) (clock w) (ticks w) (trace w) true)
    with (with_profiling true w).
  rewrite H. reflexivity.
Qed.





(* ================================================================== *)
(** * Part III: further properties of the code *)
(* ================================================================== *)

(** ** fib: growth and cost *)

Lemma fibonacci_pair_ordered (k : nat) :
  0 <= fst (fibonacci_pair k) <= snd (fibonacci_pair k).
Proof.
  induction k as [| k IH]; [cbn; lia |].
  cbn [fibonacci_pair]. destruct (fibonacci_pair k) as [a b].
  cbn [fst snd] in *. lia.
Qed.

Lemma fibonacci_mono (k : nat) : 0 <= fibonacci k <= fibonacci (S k).
Proof.
  pose proof (fibonacci_pair_ordered k) as H.
  unfold fibonacci. cbn [fibonacci_pair].
  destruct (fibonacci_pair k) as [a b]. cbn [fst snd] in *. lia.
Qed.

Lemma fibonacci_lower (k : nat) :
  2 ^ Z.of_nat k <= fibonacci (S (2 * k)) /\
  2 ^ Z.of_nat k <= fibonacci (S (S (2 * k))).
Proof.
  induction k as [| k [IH1 IH2]]; [split; cbn; lia |].
  replace (2 * S k)%nat with (S (S (2 * k))) by lia.
  rewrite Nat2Z.inj_succ, Z.pow_succ_r by lia.
  pose proof (fibonacci_step (S (2 * k))) as E3.
  pose proof (fibonacci_step (S (S (2 * k)))) as E4.
  pose proof (fibonacci_mono (S (2 * k))) as M1.
  pose proof (fibonacci_mono (S (S (2 * k)))) as M2.
  lia.
Qed.

(** With room for [max 1 k] activations, [fib(k)] is F(k+1). *)
Lemma fib_value_at (k limit : nat) :
  (Nat.max 1 k <= limit)%nat ->
  fib limit (Z.of_nat k) = Some (fibonacci (S k)).
Proof.
  intros Hl.
  destruct (fib_enough_depth limit (Z.of_nat k)) as (v & Hv & _); [lia | lia |].
  rewrite Hv. f_equal.
  apply (fib_returns_unique (Z.of_nat k)).
  - exists limit. exact Hv.
  - exists (S k). apply fib_fibonacci_pair.
Qed.

Lemma fib_too_deep (n : Z) (limit : nat) :
  Z.of_nat limit < n -> fib limit n = None.
Proof.
  intros Hl. destruct (fib limit n) as [v |] eqn:E; [| reflexivity].
  apply fib_depth_needed in E. lia.
Qed.

(** X1. The load [fib] creates is exponential in its argument: a call
    [fib(n)] that returns has a value of at least 2^(n/2), and makes at
    least 2^(n/2 + 1) - 1 calls of [fib] to get it. *)
Theorem fib_exponential_cost (d : nat) (n v c : Z) :
  fib_profiled d n = Some (v, c) ->
  2 ^ (n / 2) <= v /\ 2 ^ (n / 2 + 1) - 1 <= c.
Proof.
  intros H.
  pose proof (fib_profiled_count _ _ _ _ H) as Hc.
  assert (Hv : fib d n = Some v)
    by (rewrite fib_profiled_value, H; reflexivity).
  destruct (fib_depth_needed _ _ _ Hv) as [Hn _].
  assert (Hlow : 2 ^ (n / 2) <= v).
  { set (k := Z.to_nat (n / 2)).
    assert (Hk : Z.of_nat k = n / 2) by (apply Z2Nat.id, Z.div_pos; lia).
    destruct (fibonacci_lower k) as [L1 L2]. rewrite Hk in L1, L2.
    pose proof (Z.div_mod n 2 ltac:(lia)) as Hdm.
    pose proof (Z.mod_pos_bound n 2 ltac:(lia)) as Hmb.
    destruct (Z.eq_dec (n mod 2) 0) as [E0 | E1].
    - assert (En : n = Z.of_nat (2 * k)) by lia.
      assert (v = fibonacci (S (2 * k))); [| lia].
      apply (fib_returns_unique n); [exists d; exact Hv |].
      exists (S (2 * k)). rewrite En. apply fib_fibonacci_pair.
    - assert (En : n = Z.of_nat (S (2 * k))) by lia.
      assert (v = fibonacci (S (S (2 * k)))); [| lia].
      apply (fib_returns_unique n); [exists d; exact Hv |].
      exists (S (S (2 * k))). rewrite En. apply fib_fibonacci_pair. }
  split; [exact Hlow |].
  rewrite Z.pow_add_r by (try apply Z.div_pos; lia).
  change (2 ^ 1) with 2. lia.
Qed.

Lemma fib_exponential_cost_witness :
  fib_profiled 10 10 = Some (89, 177) /\
  2 ^ (10 / 2) <= 89 /\ 2 ^ (10 / 2 + 1) - 1 <= 177.
Proof.
  split; [reflexivity |].
  apply (fib_exponential_cost 10 10 89 177). reflexivity.
Defined.

(** ** The cells *)

Section CellFacts.
Context {rt : Runtime} {fr : FloatRepr}.

(** X2. The timing cell around [fib(30)]. With room for 30 nested
    calls it prints 1346269 and then the elapsed time, which is the
    second clock reading minus the first; it takes exactly two readings
    and leaves the Timer slot and the profiling state alone. With less
    room the call of [fib] raises [RecursionError]: one reading has been
    taken and nothing has been printed. *)
Theorem timing_cell_run (limit : nat) (w : World) :
  let t0 := clock w (ticks w) in
  let t1 := clock w (S (ticks w)) in
  ((30 <= limit)%nat ->
   timing_cell limit w =
     (inr (t0, (t1 - t0)%float),
      mkWorld (Timer_start_time w) (clock w) (S (S (ticks w)))
              (trace w ++
                 [EvPrint "1346269";
                  EvPrint ("Time elapsed: " ++ float_str (t1 - t0)%float
                           ++ " s")%string])
              (profiling w))) /\
  ((limit < 30)%nat ->
   timing_cell limit w =
     (inl RecursionError,
      mkWorld (Timer_start_time w) (clock w) (S (ticks w)) (trace w)
              (profiling w))).
Proof.
  intros t0 t1. split; intros Hl; unfold timing_cell, call_fib.
  - change 30 with (Z.of_nat 30).
    rewrite (fib_value_at 30 limit) by lia.
    replace (fibonacci 31) with 1346269 by (vm_compute; reflexivity).
    unfold bind, lift, perf_counter, print, emit, ret. cbn.
    rewrite <- app_assoc. reflexivity.
  - rewrite (fib_too_deep 30 limit) by lia.
    reflexivity.
Qed.

End CellFacts.

Lemma timing_cell_run_witness :
  let w0 := initial_world half_second_clock in
  outcome (timing_cell 40) w0 = inr (0%float, 0.5%float) /\
  outcome (timing_cell 12) w0 = inl RecursionError.
Proof.
  intros w0.
  destruct (@timing_cell_run toy_float_repr 40 w0) as [Hok _].
  destruct (@timing_cell_run toy_float_repr 12 w0) as [_ Hbad].
  split.
  - unfold outcome. rewrite Hok by lia. vm_compute. reflexivity.
  - unfold outcome. rewrite Hbad by lia. reflexivity.
Defined.

Section TimerDemoCell.
Context {rt : Runtime}.

(** X3. The Timer demonstration cell, from any world. With room for
    35 nested calls it prints the three Fibonacci numbers, each followed
    by an elapsed line: the first two lines measure from the first
    [start_measure], the third from the second one; five readings are
    taken and the slot ends up holding the fourth. With room for fewer
    than 32 calls, the first [fib] raises [RecursionError] after the
    timer was started and before anything is printed; with room for 32
    to 34, the last [fib] raises after the timer was restarted. *)
Theorem timer_demo_cell_run (limit : nat) (w : World) :
  let c := fun i : nat => clock w (ticks w + i) in
  ((35 <= limit)%nat ->
   timer_demo_cell limit w =
     (inr tt,
      mkWorld (VFloat (c 3%nat)) (clock w) (ticks w + 5)
              (trace w ++
                 [EvPrint "3524578"; EvPrint (elapsed_line (c 1%nat) (c 0%nat));
                  EvPrint "2178309"; EvPrint (elapsed_line (c 2%nat) (c 0%nat));
                  EvPrint "14930352"; EvPrint (elapsed_line (c 4%nat) (c 3%nat))])
              (profiling w))) /\
  ((limit < 32)%nat ->
   timer_demo_cell limit w =
     (inl RecursionError,
      mkWorld (VFloat (c 0%nat)) (clock w) (ticks w + 1) (trace w)
              (profiling w))) /\
  ((32 <= limit < 35)%nat ->
   timer_demo_cell limit w =
     (inl RecursionError,
      mkWorld (VFloat (c 3%nat)) (clock w) (ticks w + 4)
              (trace w ++
                 [EvPrint "3524578"; EvPrint (elapsed_line (c 1%nat) (c 0%nat));
                  EvPrint "2178309"; EvPrint (elapsed_line (c 2%nat) (c 0%nat))])
              (profiling w))).
Proof.
  intros c. unfold c.
  replace (ticks w + 0)%nat with (ticks w) by lia.
  replace (ticks w + 1)%nat with (S (ticks w)) by lia.
  replace (ticks w + 2)%nat with (S (S (ticks w))) by lia.
  replace (ticks w + 3)%nat with (S (S (S (ticks w)))) by lia.
  replace (ticks w + 4)%nat with (S (S (S (S (ticks w))))) by lia.
  replace (ticks w + 5)%nat with (S (S (S (S (S (ticks w)))))) by lia.
  assert (V32 : fibonacci 33 = 3524578) by (vm_compute; reflexivity).
  assert (V31 : fibonacci 32 = 2178309) by (vm_compute; reflexivity).
  assert (V35 : fibonacci 36 = 14930352) by (vm_compute; reflexivity).
  split; [| split]; intros Hl; unfold timer_demo_cell, call_fib.
  - change 32 with (Z.of_nat 32). change 31 with (Z.of_nat 31).
    change 35 with (Z.of_nat 35).
    rewrite (fib_value_at 32 limit), (fib_value_at 31 limit),
      (fib_value_at 35 limit) by lia.
    rewrite V32, V31, V35.
    unfold bind at 1. rewrite start_measure_run.
    unfold bind, lift, print, emit.
    rewrite (print_time_started _ (clock w (ticks w))) by reflexivity.
    rewrite (print_time_started _ (clock w (ticks w))) by reflexivity.
    rewrite start_measure_run.
    rewrite (print_time_started _ (clock w (S (S (S (ticks w))))))
      by reflexivity.
    cbn. rewrite <- !app_assoc. reflexivity.
  - rewrite (fib_too_deep 32 limit) by lia. reflexivity.
  - change 32 with (Z.of_nat 32). change 31 with (Z.of_nat 31).
    rewrite (fib_value_at 32 limit), (fib_value_at 31 limit) by lia.
    rewrite (fib_too_deep 35 limit) by lia.
    rewrite V32, V31.
    unfold bind at 1. rewrite start_measure_run.
    unfold bind, lift, print, emit.
    rewrite (print_time_started _ (clock w (ticks w))) by reflexivity.
    rewrite (print_time_started _ (clock w (ticks w))) by reflexivity.
    rewrite start_measure_run.
    cbn. rewrite <- !app_assoc. reflexivity.
Qed.

End TimerDemoCell.

Lemma timer_demo_cell_run_witness :
  let w0 := initial_world half_second_clock in
  Timer_start_time (world_after (@timer_demo_cell toy_runtime 50) w0)
    = VFloat 1.5%float /\
  outcome (@timer_demo_cell toy_runtime 20) w0 = inl RecursionError /\
  ticks (world_after (@timer_demo_cell toy_runtime 33) w0) = 4%nat.
Proof.
  intros w0.
  destruct (@timer_demo_cell_run toy_runtime 50 w0) as (H1 & _ & _).
  destruct (@timer_demo_cell_run toy_runtime 20 w0) as (_ & H2 & _).
  destruct (@timer_demo_cell_run toy_runtime 33 w0) as (_ & _ & H3).
  split; [| split].
  - unfold world_after. rewrite H1 by lia. vm_compute. reflexivity.
  - unfold outcome. rewrite H2 by lia. reflexivity.
  - unfold world_after. rewrite H3 by lia. reflexivity.
Defined.

(** ** The workload: edges and failures *)

Section WorkloadEdges.
Context {rt : Runtime}.

Lemma iterate_f_raised (k j : nat) (x : pyval) (e : exn) :
  iterate_f k x = inl e -> iterate_f (k + j) x = inl e.
Proof.
  intros H. induction j as [| j IH].
  - rewrite Nat.add_0_r. exact H.
  - rewrite Nat.add_succ_r. cbn [iterate_f]. rewrite IH. reflexivity.
Qed.

(** X4. Edges of [compute]. For [n <= 0] the loop body never runs and
    the integer 1 comes back untouched; one more round is one more
    application of [f] to the previous result; after at least one round
    a returned result is a float; and once a round raises, every longer
    run raises the same exception. *)
Theorem compute_edges :
  (forall n, n <= 0 -> compute n = inr (VInt 1)) /\
  (forall n, 0 <= n -> compute (n + 1) = res_bind (compute n) f) /\
  (forall n v, 1 <= n -> compute n = inr v -> exists y, v = VFloat y) /\
  (forall n m e, compute n = inl e -> n <= m -> compute m = inl e).
Proof.
  split; [| split; [| split]].
  - intros n Hn. rewrite compute_as_iterate.
    replace (Z.to_nat n) with 0%nat by lia. reflexivity.
  - intros n Hn. rewrite !compute_as_iterate.
    replace (Z.to_nat (n + 1)) with (S (Z.to_nat n)) by lia. reflexivity.
  - exact compute_returns_float.
  - intros n m e He Hle. rewrite compute_as_iterate in *.
    replace (Z.to_nat m) with (Z.to_nat n + (Z.to_nat m - Z.to_nat n))%nat
      by lia.
    apply iterate_f_raised. exact He.
Qed.

(** How [main] runs when the three computations return floats. *)
Lemma main_when_all_return (w : World) (x y z : float) :
  fun1 = inr (VFloat x) -> fun2 = inr (VFloat y) ->
  compute (7 * 10 ^ 5) = inr (VFloat z) ->
  main w =
    (inr tt,
     mkWorld (Timer_start_time w) (clock w) (ticks w)
             (trace w ++
                [EvSleep tenth; EvSleep tenth;
                 EvPrint (sum_line (x + y + z)%float)])
             (profiling w)).
Proof.
  intros Ha Hb Hc.
  unfold main, fun3, bind, lift, sleep_, sleep, print, emit.
  rewrite Ha, Hb, Hc. cbn.
  rewrite <- !app_assoc. reflexivity.
Qed.

(** X5. How [main] fails. When [fun1] or [fun2] raises, [main] raises
    the same exception having done nothing at all. When they return and
    the computation inside [fun3] raises, [main] raises that exception
    after the sleep of [fun3] and before its own sleep. In no case of
    failure is anything printed. *)
Theorem main_failure_modes (w : World) (e : exn) :
  (fun1 = inl e -> main w = (inl e, w)) /\
  (forall a, fun1 = inr a -> fun2 = inl e -> main w = (inl e, w)) /\
  (forall a b,
     fun1 = inr a -> fun2 = inr b -> compute (7 * 10 ^ 5) = inl e ->
     main w =
       (inl e,
        mkWorld (Timer_start_time w) (clock w) (ticks w)
                (trace w ++ [EvSleep tenth]) (profiling w))).
Proof.
  split; [| split].
  - intros Ha. unfold main, bind, lift. rewrite Ha. reflexivity.
  - intros a Ha Hb. unfold main, bind, lift. rewrite Ha, Hb. reflexivity.
  - intros a b Ha Hb Hc.
    destruct (compute_returns_float (3 * 10 ^ 5) a) as [x ->];
      [vm_compute; discriminate | exact Ha |].
    destruct (compute_returns_float (5 * 10 ^ 5) b) as [y ->];
      [vm_compute; discriminate | exact Hb |].
    unfold main, fun3, bind, lift, sleep_, sleep, emit.
    rewrite Ha, Hb, Hc. reflexivity.
Qed.

(** X6. [main] does not look at the world: its outcome and the events
    it emits are the same whatever the timer slot, the clock and the
    profiling state are, and it leaves all three as they were. *)
Theorem main_ignores_world :
  exists (r : Res unit) (evs : list event),
    forall w,
      main w =
        (r,
         mkWorld (Timer_start_time w) (clock w) (ticks w) (trace w ++ evs)
                 (profiling w)).
Proof.
  assert (Hnil : forall (r : Res unit),
    exists evs, forall w : World,
      (r, w) =
        (r, mkWorld (Timer_start_time w) (clock w) (ticks w)
                    (trace w ++ evs) (profiling w))).
  { intros r. exists []. intros w. rewrite app_nil_r. destruct w; reflexivity. }
  unfold main, fun3, bind, lift, sleep_, sleep, print, emit.
  destruct fun1 as [e | a]; [exists (inl e); apply Hnil |].
  destruct fun2 as [e | b]; [exists (inl e); apply Hnil |].
  destruct (py_add a b) as [e | ab]; [exists (inl e); apply Hnil |].
  destruct (compute (7 * 10 ^ 5)) as [e | c];
    [exists (inl e), [EvSleep tenth]; intros w; reflexivity |].
  destruct (py_add ab c) as [e | sum];
    [exists (inl e), [EvSleep tenth]; intros w; reflexivity |].
  destruct (format_fixed "Calcuated sum: " 3 sum newline) as [e | text].
  - exists (inl e), [EvSleep tenth; EvSleep tenth]. intros w. cbn.
    rewrite <- app_assoc. reflexivity.
  - exists (inr tt), [EvSleep tenth; EvSleep tenth; EvPrint text].
    intros w. cbn. rewrite <- !app_assoc. reflexivity.
Qed.

(** X7. [main_with_prof()]. When the three computations return, it
    returns [None] after the two sleeps, the sum line and, last, the
    profiler's report, and profiling is off afterwards whether or not it
    was on before. Called with a positional argument it raises
    [TypeError] from inside the wrapper: nothing is printed and the
    profiler is left switched on. *)
Theorem main_with_prof_run (w : World) :
  (forall x y z,
     fun1 = inr (VFloat x) -> fun2 = inr (VFloat y) ->
     compute (7 * 10 ^ 5) = inr (VFloat z) ->
     main_with_prof [] [] w =
       (inr VNone,
        mkWorld (Timer_start_time w) (clock w) (ticks w)
                (trace w ++
                   [EvSleep tenth; EvSleep tenth;
                    EvPrint (sum_line (x + y + z)%float); EvPrintStats])
                false)) /\
  (forall v args kwargs,
     main_with_prof (v :: args) kwargs w =
       (inl TypeError, with_profiling true w)).
Proof.
  split.
  - intros x y z Ha Hb Hc. unfold main_with_prof.
    rewrite (profile_when_returns _ _ _ w
               (mkWorld (Timer_start_time w) (clock w) (ticks w)
                  (trace w ++
                     [EvSleep tenth; EvSleep tenth;
                      EvPrint (sum_line (x + y + z)%float)])
                  true) VNone).
    + cbn. rewrite <- app_assoc. reflexivity.
    + cbn [call_body plain_def]. unfold main_with_prof_undecorated, bind.
      rewrite (main_when_all_return _ x y z Ha Hb Hc). reflexivity.
    + reflexivity.
  - intros v args kwargs. unfold main_with_prof.
    apply profile_when_raises. reflexivity.
Qed.

End WorkloadEdges.

Lemma compute_edges_witness :
  @compute (ramp_runtime 3) (-4) = inr (VInt 1) /\
  @compute (ramp_runtime 3) 2 = inr (VFloat 3) /\
  @compute (ramp_runtime 3) 3 = inl ValueError /\
  @compute (ramp_runtime 3) 1000 = inl ValueError.
Proof.
  destruct (@compute_edges (ramp_runtime 3)) as (H1 & H2 & H3 & H4).
  split; [apply H1; lia |].
  split; [reflexivity |].
  split; [reflexivity |].
  apply (H4 3 1000 ValueError); [reflexivity | lia].
Defined.

Lemma main_failure_modes_witness :
  let w0 := initial_world half_second_clock in
  @main (ramp_runtime 3) w0 = (inl ValueError, w0) /\
  @main (ramp_runtime 600000) w0 =
    (inl ValueError, mkWorld VNone half_second_clock 0 [EvSleep tenth] false).
Proof.
  intros w0. split.
  - apply (proj1 (@main_failure_modes (ramp_runtime 3) w0 ValueError)).
    vm_compute. reflexivity.
  - assert (Ha : exists a, @fun1 (ramp_runtime 600000) = inr a)
      by (vm_compute; eexists; reflexivity).
    assert (Hb : exists b, @fun2 (ramp_runtime 600000) = inr b)
      by (vm_compute; eexists; reflexivity).
    destruct Ha as [a Ha], Hb as [b Hb].
    apply (proj2 (proj2 (@main_failure_modes (ramp_runtime 600000) w0
                           ValueError)) a b Ha Hb).
    vm_compute. reflexivity.
Defined.

Lemma main_with_prof_run_witness :
  let w0 := initial_world half_second_clock in
  outcome (@main_with_prof toy_runtime [] []) w0 = inr VNone /\
  profiling (world_after (@main_with_prof toy_runtime [VInt 1] []) w0) = true.
Proof.
  intros w0.
  destruct (@main_with_prof_run toy_runtime w0) as [Hok Hbad].
  split.
  - assert (Ha : exists x, @fun1 toy_runtime = inr (VFloat x))
      by (vm_compute; eexists; reflexivity).
    assert (Hb : exists y, @fun2 toy_runtime = inr (VFloat y))
      by (vm_compute; eexists; reflexivity).
    assert (Hc : exists z, @compute toy_runtime (7 * 10 ^ 5) = inr (VFloat z))
      by (vm_compute; eexists; reflexivity).
    destruct Ha as [x Ha], Hb as [y Hb], Hc as [z Hc].
    unfold outcome. rewrite (Hok x y z Ha Hb Hc). reflexivity.
  - unfold world_after. rewrite Hbad. reflexivity.
Defined.

(** ** The decorator applied twice *)



(** ** Sessions: invariants *)

Lemma grows_trace_bind {A B} (m : M A) (k : A -> M B) :
  grows_trace m -> (forall a, grows_trace (k a)) -> grows_trace (bind m k).
Proof.
  intros Hm Hk w. destruct (Hm w) as [evs1 E1].
  unfold world_after, bind in *.
  destruct (m w) as [[e | a] w1]; cbn in E1 |- *.
  - exists evs1. exact E1.
  - destruct (Hk a w1) as [evs2 E2]. unfold world_after in E2.
    rewrite E2, E1. exists (evs1 ++ evs2). rewrite app_assoc. reflexivity.
Qed.

Lemma only_emits_grows_trace {A} (m : M A) : only_emits m -> grows_trace m.
Proof.
  intros H w. destruct (H w) as [evs E]. exists evs. rewrite E. reflexivity.
Qed.

Lemma grows_trace_silent {A} (m : M A) :
  (forall w, trace (world_after m w) = trace w) -> grows_trace m.
Proof.
  intros H w. exists []. rewrite H, app_nil_r. reflexivity.
Qed.

Section SessionInvariants.
Context {rt : Runtime}.

Lemma grows_trace_start_measure : grows_trace start_measure.
Proof. apply grows_trace_silent. reflexivity. Qed.

Lemma grows_trace_print_time : grows_trace print_time.
Proof.
  unfold print_time.
  apply grows_trace_bind; [apply grows_trace_silent; reflexivity | intros now].
  apply grows_trace_bind; [apply grows_trace_silent; reflexivity | intros st].
  apply only_emits_grows_trace. unfold print. frame_steps.
Qed.

Lemma grows_trace_profile (func : callable) args kwargs :
  grows_trace (call_body func args kwargs) ->
  grows_trace (profile func args kwargs).
Proof.
  intros Hf w.
  assert (K : forall b : bool, grows_trace
    (set_profiling true ;;
     ret_val <- call_body func args kwargs ;;
     set_profiling false ;;
     (if b then emit EvPrintStats else lift (inl TypeError)) ;;
     ret ret_val)).
  { intros b.
    apply grows_trace_bind; [apply grows_trace_silent; reflexivity | intros _].
    apply grows_trace_bind; [exact Hf | intros v].
    apply grows_trace_bind; [apply grows_trace_silent; reflexivity | intros _].
    apply only_emits_grows_trace. destruct b; frame_steps. }
  exact (K (call_recorded func args kwargs w) w).
Qed.

Lemma grows_trace_run_call (c : call) : grows_trace (run_call c).
Proof.
  destruct c; cbn [run_call].
  - apply grows_trace_start_measure.
  - apply grows_trace_print_time.
  - apply only_emits_grows_trace, only_emits_sleep_.
  - apply only_emits_grows_trace.
    apply only_emits_bind; [apply only_emits_fun3 | intros _; apply only_emits_ret].
  - apply only_emits_grows_trace, only_emits_main.
  - apply grows_trace_bind;
      [| intros _; apply only_emits_grows_trace, only_emits_ret].
    apply grows_trace_profile. cbn.
    apply only_emits_grows_trace.
    apply only_emits_bind; [apply only_emits_main | intros _; apply only_emits_ret].
Qed.

Lemma run_calls_clock (cs : list call) :
  forall w,
    clock (run_calls cs w) = clock w /\
    ticks (run_calls cs w) = (ticks w + readings cs)%nat.
Proof.
  induction cs as [| c cs IH]; intros w.
  - cbn. unfold readings. cbn. split; [reflexivity | lia].
  - cbn [run_calls]. rewrite readings_cons.
    destruct (run_call_timer_view c w) as (Hc & Ht & _).
    destruct (IH (world_after (run_call c) w)) as [A B].
    rewrite A, B, Hc, Ht. split; [reflexivity |].
    destruct (reads_clock c); lia.
Qed.

(** The slot holds [None] or one of the readings already taken. *)
Lemma run_calls_slot (cs : list call) :
  forall w,
    (Timer_start_time w = VNone \/
     exists i, (i < ticks w)%nat /\ Timer_start_time w = VFloat (clock w i)) ->
    Timer_start_time (run_calls cs w) = VNone \/
    exists i, (i < ticks (run_calls cs w))%nat /\
              Timer_start_time (run_calls cs w) = VFloat (clock w i).
Proof.
  induction cs as [| c cs IH]; intros w Hw; [exact Hw |].
  cbn [run_calls].
  destruct (run_call_timer_view c w) as (Hc & Ht & Hs).
  set (w1 := world_after (run_call c) w) in *.
  rewrite <- Hc. apply IH. rewrite Hc, Hs, Ht.
  destruct c; cbn [reads_clock];
    try (destruct Hw as [Hn | (i & Hi & Hv)];
         [left; exact Hn | right; exists i; split; [lia | exact Hv]]).
  right. exists (ticks w). split; [lia | reflexivity].
Qed.

(** X9. Over any session that starts from the freshly defined class,
    the slot [_start_time] holds either [None] or a float that is one of
    the clock readings taken so far; so [print_time] either succeeds or
    raises [TypeError], and no other exception. *)
Theorem session_slot_invariant (clk : nat -> float) (cs : list call) :
  (Timer_start_time (run_calls cs (initial_world clk)) = VNone \/
   exists i, (i < readings cs)%nat /\
             Timer_start_time (run_calls cs (initial_world clk)) = VFloat (clk i)) /\
  (outcome print_time (run_calls cs (initial_world clk)) = inr tt \/
   outcome print_time (run_calls cs (initial_world clk)) = inl TypeError).
Proof.
  destruct (run_calls_clock cs (initial_world clk)) as [_ Ht].
  destruct (run_calls_slot cs (initial_world clk)) as [Hn | (i & Hi & Hv)];
    [left; reflexivity | |].
  - split; [left; exact Hn |]. right.
    unfold outcome. rewrite (print_time_unstarted _ Hn). reflexivity.
  - split; [right; exists i; split; [rewrite Ht in Hi; exact Hi | exact Hv] |].
    left. unfold outcome. rewrite (print_time_started _ _ Hv). reflexivity.
Qed.

(** X10. Bookkeeping of a session, from any world: the clock is read
    exactly once per [start_measure] or [print_time] and by nothing
    else, and nothing already in the trace is ever removed or changed,
    whichever calls raise. *)
Theorem session_bookkeeping (cs : list call) (w : World) :
  clock (run_calls cs w) = clock w /\
  ticks (run_calls cs w) = (ticks w + readings cs)%nat /\
  exists evs, trace (run_calls cs w) = trace w ++ evs.
Proof.
  destruct (run_calls_clock cs w) as [Hc Ht].
  split; [exact Hc |]. split; [exact Ht |].
  clear Hc Ht. revert w.
  induction cs as [| c cs IH]; intros w.
  - exists []. cbn. rewrite app_nil_r. reflexivity.
  - cbn [run_calls].
    destruct (grows_trace_run_call c w) as [evs1 E1].
    destruct (IH (world_after (run_call c) w)) as [evs2 E2].
    exists (evs1 ++ evs2). rewrite E2, E1, app_assoc. reflexivity.
Qed.

End SessionInvariants.
